(** * Trading-plan generator of QlibLearn (examples/07_generate_trading_plan.py)

    A shallow embedding of the allocation, rebalancing and plan-building
    functions of the script, and of its selection reader, with the
    properties of the specification stated over them.

    Conventions of the model.
    - A Python [dict] keeps insertion order and the script iterates over
      its dicts, so a dict is an association list with the update of
      Python: assigning to a key that is present replaces the value where
      the key stands, assigning to an absent key appends.
    - Python [int] is [Z].
    - Python [float] amounts and prices are the rationals [Q], with the
      arithmetic exact; equality of rationals is [==] ([Qeq]).  The
      rounding of binary floating point is outside the model.
    - The action labels are the string literals of the script. *)

From Stdlib Require Import List String Ascii ZArith QArith Qround Qabs Lia
  Lqa DecimalString.
Import ListNotations.

Local Open Scope string_scope.
Local Open Scope list_scope.
Local Open Scope Z_scope.

(** ** Insertion-ordered dictionaries *)

Module PyDict.

Section Dict.
Context {V : Type}.

Definition dict := list (string * V).

(** [d.get(k)]: the value bound to [k], if any. *)
Fixpoint get (d : dict) (k : string) : option V :=
  match d with
  | [] => None
  | (k', v) :: r => if String.eqb k' k then Some v else get r k
  end.

(** [k in d] *)
Definition contains (d : dict) (k : string) : bool :=
  match get d k with Some _ => true | None => false end.

(** [d[k] = v] *)
Fixpoint set (d : dict) (k : string) (v : V) : dict :=
  match d with
  | [] => [(k, v)]
  | (k', v') :: r =>
      if String.eqb k' k then (k', v) :: r else (k', v') :: set r k v
  end.

Definition keys (d : dict) : list string := map fst d.

(** What every dict of Python satisfies: no key is bound twice. *)
Definition wf (d : dict) : Prop := NoDup (keys d).
End Dict.

Arguments dict V : clear implicits.

End PyDict.

Import PyDict.

(** ** Records of the script

    Each record stands for the dict literal of the script with the same
    keys. *)

(** A row of the positions file, as [read_current_positions] builds it:
    the three keys are always there, so the default of
    [current.get('current_price', 0)] in [calculate_rebalancing] is never
    taken. *)
Module Holding.
Record t := mk { quantity : Z; cost_price : Q; current_price : Q }.
End Holding.

(** A value of the dict returned by [calculate_target_positions]. *)
Module Target.
Record t := mk {
  weight : Q;
  target_amount : Q;
  target_qty : Z;
  actual_amount : Q;
  price : Q
}.
End Target.

(** A value of the dict returned by [calculate_rebalancing]. *)
Module Rebalance.
Record t := mk {
  target_qty : Z;
  current_qty : Z;
  diff : Z;
  action : string;
  action_qty : Z;
  price : Q
}.
End Rebalance.

(** An entry of [buy_list] or of [sell_list]. *)
Module Order.
Record t := mk { stock : string; quantity : Z; price : Q; amount : Q }.
End Order.

(** An entry of [no_action_list]. *)
Module NoAction.
Record t := mk { stock : string; target_qty : Z; current_qty : Z }.
End NoAction.

(** The dict returned by [generate_trading_plan]. *)
Module Plan.
Record t := mk {
  buy_list : list Order.t;
  sell_list : list Order.t;
  no_action_list : list NoAction.t;
  total_buy_amount : Q;
  total_sell_amount : Q;
  available_cash : Q;
  cash_balance : Q
}.
End Plan.

(** The three labels written by [calculate_rebalancing]. *)
Definition BUY : string := "买入".
Definition SELL : string := "卖出".
Definition HOLD : string := "无需操作".

(** ** calculate_target_positions *)

(** The body of the loop over [stocks]: an instrument without a price, or
    with a price that is not positive, is skipped. *)
Definition target_step (weight target_amount : Q) (prices : dict (option Q))
    (target_positions : dict Target.t) (stock : string) : dict Target.t :=
  match get prices stock with
  | Some (Some price) =>
      if Qle_bool price 0 then target_positions
      else
        let target_qty := Qfloor ((target_amount / price) / 100) * 100 in
        let actual_amount := (inject_Z target_qty * price)%Q in
        set target_positions stock
          (Target.mk weight target_amount target_qty actual_amount price)
  | _ => target_positions
  end.

Definition calculate_target_positions (total_assets : Q)
    (stocks : list string) (prices : dict (option Q)) : dict Target.t :=
  let n_stocks := List.length stocks in
  if Nat.eqb n_stocks 0 then []
  else
    let weight := (1 / inject_Z (Z.of_nat n_stocks))%Q in
    let target_amount := (total_assets * weight)%Q in
    fold_left (target_step weight target_amount prices) stocks [].

(** ** calculate_rebalancing *)

(** First loop: the instruments of the target allocation. *)
Definition rebalance_target_step (current_positions : dict Holding.t)
    (rebalancing : dict Rebalance.t) (item : string * Target.t)
    : dict Rebalance.t :=
  let (stock, target) := item in
  let current_qty :=
    match get current_positions stock with
    | Some current => Holding.quantity current
    | None => 0
    end in
  let target_qty := Target.target_qty target in
  let diff := target_qty - current_qty in
  set rebalancing stock
    (Rebalance.mk target_qty current_qty diff
       (if 0 <? diff then BUY else if diff <? 0 then SELL else HOLD)
       (if negb (diff =? 0) then Z.abs diff else 0)
       (Target.price target)).

(** Second loop: the holdings that the target allocation does not name. *)
Definition rebalance_current_step (target_positions : dict Target.t)
    (rebalancing : dict Rebalance.t) (item : string * Holding.t)
    : dict Rebalance.t :=
  let (stock, current) := item in
  if negb (contains target_positions stock) then
    set rebalancing stock
      (Rebalance.mk 0 (Holding.quantity current)
         (- Holding.quantity current) SELL (Holding.quantity current)
         (Holding.current_price current))
  else rebalancing.

Definition calculate_rebalancing (target_positions : dict Target.t)
    (current_positions : dict Holding.t) : dict Rebalance.t :=
  let rebalancing :=
    fold_left (rebalance_target_step current_positions) target_positions []
  in
  fold_left (rebalance_current_step target_positions) current_positions
    rebalancing.

(** ** generate_trading_plan *)

(** The three lists while the loop over [rebalancing.items()] runs. *)
Definition lists : Type :=
  (list Order.t * list Order.t * list NoAction.t)%type.

Definition order_of (stock : string) (info : Rebalance.t) : Order.t :=
  Order.mk stock (Rebalance.action_qty info) (Rebalance.price info)
    (inject_Z (Rebalance.action_qty info) * Rebalance.price info)%Q.

Definition plan_step (acc : lists) (item : string * Rebalance.t) : lists :=
  let '(buy_list, sell_list, no_action_list) := acc in
  let (stock, info) := item in
  if String.eqb (Rebalance.action info) BUY then
    (buy_list ++ [order_of stock info], sell_list, no_action_list)
  else if String.eqb (Rebalance.action info) SELL then
    (buy_list, sell_list ++ [order_of stock info], no_action_list)
  else
    (buy_list, sell_list,
     no_action_list ++
       [NoAction.mk stock (Rebalance.target_qty info)
          (Rebalance.current_qty info)]).

(** [sum(...)] of Python: the additions start from 0, left to right. *)
Definition py_sum (l : list Q) : Q := fold_left Qplus l 0%Q.

Definition generate_trading_plan (rebalancing : dict Rebalance.t)
    (cash_balance : Q) : Plan.t :=
  let '(buy_list, sell_list, no_action_list) :=
    fold_left plan_step rebalancing ([], [], []) in
  let total_buy_amount := py_sum (map Order.amount buy_list) in
  let total_sell_amount := py_sum (map Order.amount sell_list) in
  let available_cash :=
    (cash_balance + total_sell_amount - total_buy_amount)%Q in
  Plan.mk buy_list sell_list no_action_list total_buy_amount
    total_sell_amount available_cash cash_balance.

(** ** Strings of Python used by the selection reader *)

(** [str.isspace] on the characters below 128. *)
Definition is_space (c : ascii) : bool :=
  let n := nat_of_ascii c in
  ((9 <=? n) && (n <=? 13) || (28 <=? n) && (n <=? 32))%nat.

Fixpoint lstrip (s : string) : string :=
  match s with
  | String c r => if is_space c then lstrip r else s
  | EmptyString => EmptyString
  end.

Fixpoint rstrip (s : string) : string :=
  match s with
  | String c r =>
      match rstrip r with
      | EmptyString => if is_space c then EmptyString else String c EmptyString
      | r' => String c r'
      end
  | EmptyString => EmptyString
  end.

(** [s.strip()] *)
Definition strip (s : string) : string := rstrip (lstrip s).

(** [s.startswith('#')] *)
Definition starts_with_hash (s : string) : bool :=
  match s with
  | String c _ => Ascii.eqb c "#"
  | EmptyString => false
  end.

(** The pieces of [s] between the occurrences of [sep]. *)
Fixpoint split_on (sep : ascii) (s : string) : list string :=
  match s with
  | EmptyString => [EmptyString]
  | String c r =>
      if Ascii.eqb c sep then EmptyString :: split_on sep r
      else
        match split_on sep r with
        | p :: ps => String c p :: ps
        | [] => [String c EmptyString]
        end
  end.

Definition LF : ascii := ascii_of_nat 10.

(** The lines of a text read in text mode, without their terminators.  The
    piece after a final line feed is empty; every reader below drops empty
    lines. *)
Definition lines (content : string) : list string := split_on LF content.

(** Truth value of [None], or of a string. *)
Definition truthy (o : option string) : bool :=
  match o with
  | Some (String _ _) => true
  | _ => false
  end.

(** [a or b] *)
Definition py_or (a b : option string) : option string :=
  if truthy a then a else b.

(** ** read_selection_result

    The function reads the file through [csv.DictReader] of the Python
    library.  The library is a parameter of the model: for the text of a
    file it gives the rows that the iteration yields, each a dict from
    field name to field (or to [None], for a row shorter than the header),
    and whether the iteration ended by raising. *)

Module Csv.
Definition row : Type := dict (option string).
Record outcome := mk { rows : list row; raised : bool }.
End Csv.

(** [row.get(k)]: [None] also when the key is absent. *)
Definition row_get (row : Csv.row) (k : string) : option string :=
  match get row k with
  | Some v => v
  | None => None
  end.

Section SelectionReader.
Variable DictReader : string -> Csv.outcome.

Definition selection_row_step (stocks : list string) (row : Csv.row)
    : list string :=
  let stock :=
    py_or (py_or (row_get row "stock_code") (row_get row "instrument"))
      (row_get row "code") in
  match stock with
  | Some (String c r) => stocks ++ [strip (String c r)]
  | _ => stocks
  end.

Definition selection_line_step (stocks : list string) (line : string)
    : list string :=
  let line := strip line in
  match line with
  | String _ _ =>
      if negb (starts_with_hash line) then stocks ++ [line] else stocks
  | EmptyString => stocks
  end.

(** [content] is the text of the file at [file_path]; a file that cannot
    be opened ends the process and has no result to speak of. *)
Definition read_selection_result (content : string) : list string :=
  let reader := DictReader content in
  let stocks := fold_left selection_row_step (Csv.rows reader) [] in
  if Csv.raised reader then
    fold_left selection_line_step (lines content) stocks
  else stocks.
End SelectionReader.

(** The rows of [csv.DictReader] for a text without quote characters and
    without carriage returns: the first non-empty line gives the field
    names, every later non-empty line a row; the fields are the pieces
    between commas; a short row is completed with [None], the fields
    beyond the header are not bound to a name; nothing is raised. *)
Definition non_empty (s : string) : bool :=
  match s with EmptyString => false | _ => true end.

Fixpoint zip_row (fieldnames fields : list string) (row : Csv.row)
    : Csv.row :=
  match fieldnames, fields with
  | [], _ => row
  | k :: ks, [] => zip_row ks [] (set row k None)
  | k :: ks, v :: vs => zip_row ks vs (set row k (Some v))
  end.

Definition plain_DictReader (content : string) : Csv.outcome :=
  match filter non_empty (lines content) with
  | [] => Csv.mk [] false
  | header :: body =>
      let fieldnames := split_on "," header in
      Csv.mk (map (fun l => zip_row fieldnames (split_on "," l) []) body)
        false
  end.

(** The text made of the given lines, each ended by a line feed. *)
Definition unlines (ls : list string) : string :=
  fold_right (fun l acc => (l ++ String LF acc)%string) EmptyString ls.

(** ** The lists of a plan, read off the rebalancing dict

    What the loop of [generate_trading_plan] adds to each list, as a
    filter of the items; [plan_lists] relates the two. *)

Definition is_buy (info : Rebalance.t) : bool :=
  String.eqb (Rebalance.action info) BUY.

Definition is_sell (info : Rebalance.t) : bool :=
  negb (is_buy info) && String.eqb (Rebalance.action info) SELL.

Definition is_no_action (info : Rebalance.t) : bool :=
  negb (is_buy info) && negb (String.eqb (Rebalance.action info) SELL).

Definition orders_where (sel : Rebalance.t -> bool)
    (rebalancing : dict Rebalance.t) : list Order.t :=
  map (fun kv => order_of (fst kv) (snd kv))
    (filter (fun kv => sel (snd kv)) rebalancing).

Definition no_actions (rebalancing : dict Rebalance.t) : list NoAction.t :=
  map (fun kv => NoAction.mk (fst kv) (Rebalance.target_qty (snd kv))
                   (Rebalance.current_qty (snd kv)))
    (filter (fun kv => is_no_action (snd kv)) rebalancing).

(** How often [stock] is named in the three lists of a plan. *)
Definition occurrences (stock : string) (plan : Plan.t) : nat * nat * nat :=
  (count_occ string_dec (map Order.stock (Plan.buy_list plan)) stock,
   count_occ string_dec (map Order.stock (Plan.sell_list plan)) stock,
   count_occ string_dec (map NoAction.stock (Plan.no_action_list plan)) stock).

(** The entry that the first loop of [calculate_rebalancing] writes for an
    instrument of the target allocation, and the entry that the second loop
    writes for a holding outside it. *)
Definition entry_of_target (current_positions : dict Holding.t)
    (stock : string) (target : Target.t) : Rebalance.t :=
  let current_qty :=
    match get current_positions stock with
    | Some current => Holding.quantity current
    | None => 0
    end in
  let diff := Target.target_qty target - current_qty in
  Rebalance.mk (Target.target_qty target) current_qty diff
    (if 0 <? diff then BUY else if diff <? 0 then SELL else HOLD)
    (if negb (diff =? 0) then Z.abs diff else 0)
    (Target.price target).

Definition entry_of_holding (current : Holding.t) : Rebalance.t :=
  Rebalance.mk 0 (Holding.quantity current) (- Holding.quantity current) SELL
    (Holding.quantity current) (Holding.current_price current).

(** The price that [calculate_target_positions] accepts for an instrument:
    one that [prices] holds, that is not [None], and that is positive. *)
Definition price_of (prices : dict (option Q)) (stock : string) : option Q :=
  match get prices stock with
  | Some (Some price) => if Qle_bool price 0 then None else Some price
  | _ => None
  end.

(** The entry written for an instrument with an accepted price. *)
Definition entry_of_price (weight target_amount price : Q) : Target.t :=
  Target.mk weight target_amount
    (Qfloor ((target_amount / price) / 100) * 100)
    (inject_Z (Qfloor ((target_amount / price) / 100) * 100) * price)%Q
    price.

(** The weight computed from the length of the list. *)
Definition weight_of (stocks : list string) : Q :=
  (1 / inject_Z (Z.of_nat (List.length stocks)))%Q.

(** Whether [calculate_target_positions] accepts the price of an
    instrument. *)
Definition priced (prices : dict (option Q)) (stock : string) : bool :=
  match price_of prices stock with
  | Some _ => true
  | None => false
  end.




(** A field of a one-column file: not empty, on one line, without a
    comma.  A blank is a space or a tab. *)
Definition field_char (c : ascii) : bool :=
  negb (Ascii.eqb c LF) && negb (Ascii.eqb c ",").


Definition blank_char (c : ascii) : bool :=
  Ascii.eqb c " " || Ascii.eqb c (ascii_of_nat 9).


(** ** read_current_positions

    As for the selection reader, [csv.DictReader] is a parameter, and so is
    [float] on a text: [float_of_string s] is [None] when Python raises
    [ValueError].  Texts that Python reads as nan or as an infinity are
    outside the model.  The result is [None] when the function ends the
    process ([sys.exit(1)] in its [except] clause). *)

(** [int(x)] on a float: the integer part, towards zero. *)
Definition int_of_float (x : Q) : Z :=
  if Qle_bool 0 x then Qfloor x else Qceiling x.

Section PositionReader.
Variable DictReader : string -> Csv.outcome.
Variable float_of_string : string -> option Q.

(** [float(row.get(k, 0))]: 0 for an absent key; a key bound to [None] (a
    row shorter than the header) makes [float] raise, and so does a text
    that is no number. *)
Definition float_field (row : Csv.row) (k : string) : option Q :=
  match get row k with
  | None => Some 0%Q
  | Some None => None
  | Some (Some s) => float_of_string s
  end.

Definition position_row_step (positions : option (dict Holding.t))
    (row : Csv.row) : option (dict Holding.t) :=
  match positions with
  | None => None
  | Some positions =>
      match py_or (row_get row "stock_code") (row_get row "code") with
      | Some (String c r) =>
          match float_field row "quantity", float_field row "cost_price",
                float_field row "current_price" with
          | Some quantity, Some cost_price, Some current_price =>
              Some (set positions (strip (String c r))
                      (Holding.mk (int_of_float quantity) cost_price
                         current_price))
          | _, _, _ => None
          end
      | _ => Some positions
      end
  end.

Definition read_current_positions (content : string)
    : option (dict Holding.t) :=
  let reader := DictReader content in
  match fold_left position_row_step (Csv.rows reader) (Some []) with
  | Some positions => if Csv.raised reader then None else Some positions
  | None => None
  end.
End PositionReader.

(** An instance of [float_of_string] for plain decimal numerals, with an
    optional minus sign and an optional fraction, which it reads as Python
    does.  It refuses every other text; Python accepts some of them
    (exponents, blanks around the numeral). *)
Definition digit (c : ascii) : option Z :=
  let n := nat_of_ascii c in
  if ((48 <=? n) && (n <=? 57))%nat then Some (Z.of_nat n - 48) else None.

Fixpoint digits_value (s : string) (acc : Z) : option Z :=
  match s with
  | EmptyString => Some acc
  | String c r =>
      match digit c with
      | Some d => digits_value r (acc * 10 + d)
      | None => None
      end
  end.

Definition unsigned_decimal (s : string) : option Q :=
  match split_on "." s with
  | [i] => if non_empty i then option_map inject_Z (digits_value i 0) else None
  | [i; f] =>
      match digits_value i 0, digits_value f 0 with
      | Some a, Some b =>
          if non_empty i || non_empty f then
            Some (inject_Z a
                  + inject_Z b / inject_Z (10 ^ Z.of_nat (String.length f)))%Q
          else None
      | _, _ => None
      end
  | _ => None
  end.

Definition plain_decimal (s : string) : option Q :=
  match s with
  | String "-" r => option_map Qopp (unsigned_decimal r)
  | _ => unsigned_decimal s
  end.

(** ** print_trading_plan and save_trading_plan

    [format_2f x] stands for the text of [f"{x:.2f}"], a parameter.  The
    model of [save_trading_plan] is the list of the rows handed to the CSV
    writer, each row the list of its cells as texts. *)

(** The remark of a sell row and of a buy row, in both functions. *)
Definition sell_remark (quantity : Z) : string :=
  if 1000 <=? quantity then "清仓" else "减仓".

Definition buy_remark (quantity : Z) : string :=
  if 1000 <=? quantity then "新买入" else "加仓".

(** [str(n)] for an integer. *)
Definition str_int (n : Z) : string :=
  DecimalString.NilZero.string_of_int (Z.to_int n).


Section Writer.
Variable format_2f : Q -> string.

(** The rows of [for idx, item in enumerate(orders, 1)], with the first
    index as a parameter. *)
Fixpoint order_rows (remark : Z -> string) (idx : Z) (orders : list Order.t)
    : list (list string) :=
  match orders with
  | [] => []
  | item :: rest =>
      [str_int idx; Order.stock item; str_int (Order.quantity item);
       format_2f (Order.price item); format_2f (Order.amount item);
       remark (Order.quantity item)]
      :: order_rows remark (idx + 1) rest
  end.

Definition save_trading_plan (plan : Plan.t) (trade_date : string)
    : list (list string) :=
  [["交易计划清单"; trade_date];
   [];
   ["卖出清单"];
   ["序号"; "股票代码"; "卖出数量"; "当前价格"; "预计金额"; "备注"]]
  ++ order_rows sell_remark 1 (Plan.sell_list plan)
  ++ [["卖出合计"; ""; ""; ""; format_2f (Plan.total_sell_amount plan); ""];
      [];
      ["买入清单"];
      ["序号"; "股票代码"; "买入数量"; "当前价格"; "预计金额"; "备注"]]
  ++ order_rows buy_remark 1 (Plan.buy_list plan)
  ++ [["买入合计"; ""; ""; ""; format_2f (Plan.total_buy_amount plan); ""];
      [];
      ["资金检查"];
      ["项目"; "金额"];
      ["现金余额"; format_2f (Plan.cash_balance plan)];
      ["卖出总金额"; format_2f (Plan.total_sell_amount plan)];
      ["买入总金额"; format_2f (Plan.total_buy_amount plan)];
      ["执行后可用资金"; format_2f (Plan.available_cash plan)]].
End Writer.

(** An instance of [format_2f] on the rationals: two decimals, the nearest
    hundredth with ties to the even one, as the format of Python rounds
    the value it is given. *)
Definition hundredths (x : Q) : Z :=
  let y := (Qabs x * 100)%Q in
  let f := Qfloor y in
  let r := (y - inject_Z f)%Q in
  if Qle_bool r (1 # 2) then
    if Qle_bool (1 # 2) r then (if Z.even f then f else f + 1) else f
  else f + 1.

Definition two_digits (n : Z) : string :=
  if n <? 10 then ("0" ++ str_int n)%string else str_int n.

Definition decimal_2f (x : Q) : string :=
  let h := hundredths x in
  ((if Qle_bool 0 x then "" else "-")
   ++ str_int (h / 100) ++ "." ++ two_digits (h mod 100))%string.

(** * Properties *)

(** ** Dictionaries *)

Module PyDictFacts.
Section Facts.
Context {V : Type}.
Implicit Types (d : dict V) (k : string) (v : V).

Lemma get_set_same d k v : get (set d k v) k = Some v.
Proof.
  induction d as [|[k' v'] r IH]; simpl.
  - now rewrite String.eqb_refl.
  - destruct (String.eqb k' k) eqn:E; simpl; rewrite E; auto.
Qed.

Lemma get_set_other d k k' v : k <> k' -> get (set d k v) k' = get d k'.
Proof.
  intros Hne. induction d as [|[k0 v0] r IH]; simpl.
  - destruct (String.eqb_spec k k'); congruence.
  - destruct (String.eqb_spec k0 k) as [->|]; simpl.
    + destruct (String.eqb_spec k k'); congruence.
    + destruct (String.eqb_spec k0 k'); auto.
Qed.

Lemma get_None d k : get d k = None <-> ~ In k (keys d).
Proof.
  induction d as [|[k' v'] r IH]; simpl.
  - tauto.
  - destruct (String.eqb_spec k' k); split; try discriminate; try tauto.
Qed.

Lemma contains_In d k : contains d k = true <-> In k (keys d).
Proof.
  unfold contains. destruct (get d k) eqn:E.
  - split; auto. intros _.
    destruct (in_dec string_dec k (keys d)) as [|n]; auto.
    apply get_None in n. congruence.
  - apply get_None in E. split; [discriminate | tauto].
Qed.

Lemma contains_false d k : contains d k = false <-> ~ In k (keys d).
Proof.
  rewrite <- contains_In. destruct (contains d k); split; congruence.
Qed.

Lemma get_Some_In d k v : get d k = Some v -> In (k, v) d.
Proof.
  induction d as [|[k' v'] r IH]; simpl; try discriminate.
  destruct (String.eqb_spec k' k) as [->|]; intros H.
  - left. congruence.
  - right. auto.
Qed.

Lemma In_get d k v : wf d -> In (k, v) d -> get d k = Some v.
Proof.
  unfold wf. induction d as [|[k' v'] r IH]; simpl; intros Hwf Hin.
  - contradiction.
  - inversion Hwf as [|? ? Hnot Hr]; subst.
    destruct Hin as [Heq|Hin].
    + inversion Heq; subst. now rewrite String.eqb_refl.
    + destruct (String.eqb_spec k' k) as [->|]; auto.
      exfalso. apply Hnot. change k with (fst (k, v)).
      now apply in_map.
Qed.

Lemma keys_set d k v :
  keys (set d k v) = if contains d k then keys d else keys d ++ [k].
Proof.
  unfold contains. induction d as [|[k' v'] r IH]; simpl; auto.
  destruct (String.eqb_spec k' k) as [->|]; simpl; auto.
  rewrite IH. destruct (get r k); auto.
Qed.

Lemma wf_set d k v : wf d -> wf (set d k v).
Proof.
  unfold wf. rewrite keys_set. destruct (contains d k) eqn:E; auto.
  intros Hwf. apply contains_false in E.
  apply NoDup_app; auto.
  - constructor; [simpl; tauto | constructor].
  - intros x Hx [<-|[]]. contradiction.
Qed.

Lemma in_set d k v kv : In kv (set d k v) -> kv = (k, v) \/ In kv d.
Proof.
  induction d as [|[k' v'] r IH]; simpl.
  - intros [<-|[]]. auto.
  - destruct (String.eqb_spec k' k) as [->|]; simpl.
    + intros [<-|H]; auto.
    + intros [<-|H]; auto. destruct (IH H); auto.
Qed.
End Facts.
End PyDictFacts.

Import PyDictFacts.

(** ** The two loops of calculate_rebalancing *)

Lemma rebalance_target_step_set current rebalancing stock target :
  rebalance_target_step current rebalancing (stock, target)
  = set rebalancing stock (entry_of_target current stock target).
Proof. reflexivity. Qed.

Lemma target_loop_wf current target acc :
  wf acc -> wf (fold_left (rebalance_target_step current) target acc).
Proof.
  revert acc.
  induction target as [|[k v] r IH]; cbn [fold_left]; intros acc Hacc; auto.
  apply IH. rewrite rebalance_target_step_set. now apply wf_set.
Qed.

Lemma target_loop_other current target acc s :
  ~ In s (keys target) ->
  get (fold_left (rebalance_target_step current) target acc) s = get acc s.
Proof.
  revert acc.
  induction target as [|[k v] r IH]; cbn [fold_left]; intros acc Hs; auto.
  simpl in Hs. rewrite IH by tauto.
  rewrite rebalance_target_step_set. apply get_set_other. tauto.
Qed.

Lemma target_loop_get current target acc s tp :
  wf target -> get target s = Some tp ->
  get (fold_left (rebalance_target_step current) target acc) s
  = Some (entry_of_target current s tp).
Proof.
  revert acc.
  induction target as [|[k v] r IH]; cbn [fold_left get]; intros acc Hwf Hget.
  - discriminate.
  - inversion Hwf as [|? ? Hk Hr]; subst.
    destruct (String.eqb_spec k s) as [->|Hne].
    + inversion Hget; subst.
      rewrite target_loop_other by exact Hk.
      rewrite rebalance_target_step_set. apply get_set_same.
    + now apply IH.
Qed.

Lemma current_loop_wf target current acc :
  wf acc -> wf (fold_left (rebalance_current_step target) current acc).
Proof.
  revert acc. induction current as [|[k v] r IH]; simpl; intros acc Hacc; auto.
  apply IH. destruct (contains target k); simpl; auto. now apply wf_set.
Qed.

Lemma current_loop_other target current acc s :
  contains target s = true \/ ~ In s (keys current) ->
  get (fold_left (rebalance_current_step target) current acc) s = get acc s.
Proof.
  revert acc. induction current as [|[k v] r IH]; simpl; intros acc Hs; auto.
  rewrite IH by tauto.
  destruct (contains target k) eqn:Ek; simpl; auto.
  apply get_set_other. intros ->. destruct Hs; [congruence | tauto].
Qed.

Lemma current_loop_get target current acc s h :
  wf current -> contains target s = false -> get current s = Some h ->
  get (fold_left (rebalance_current_step target) current acc) s
  = Some (entry_of_holding h).
Proof.
  revert acc. induction current as [|[k v] r IH]; simpl;
    intros acc Hwf Hout Hget.
  - discriminate.
  - inversion Hwf as [|? ? Hk Hr]; subst.
    destruct (String.eqb_spec k s) as [->|Hne].
    + inversion Hget; subst.
      rewrite current_loop_other by tauto.
      rewrite Hout. simpl. apply get_set_same.
    + now apply IH.
Qed.

Lemma calculate_rebalancing_wf target current :
  wf (calculate_rebalancing target current).
Proof.
  unfold calculate_rebalancing.
  apply current_loop_wf, target_loop_wf. constructor.
Qed.

(** The entry of an instrument of the target allocation. *)
Lemma rebalancing_of_target target current s tp :
  wf target -> get target s = Some tp ->
  get (calculate_rebalancing target current) s
  = Some (entry_of_target current s tp).
Proof.
  intros Hwf Hget. unfold calculate_rebalancing.
  rewrite current_loop_other.
  - now apply target_loop_get.
  - left. unfold contains. now rewrite Hget.
Qed.

(** The entry of a holding that the target allocation does not name. *)
Lemma rebalancing_of_holding target current s h :
  wf current -> contains target s = false -> get current s = Some h ->
  get (calculate_rebalancing target current) s = Some (entry_of_holding h).
Proof.
  intros Hwf Hout Hget. unfold calculate_rebalancing.
  now apply current_loop_get.
Qed.

(** ** The loop of generate_trading_plan *)

Lemma plan_lists rebalancing buy sell hold :
  fold_left plan_step rebalancing (buy, sell, hold)
  = (buy ++ orders_where is_buy rebalancing,
     sell ++ orders_where is_sell rebalancing,
     hold ++ no_actions rebalancing).
Proof.
  revert buy sell hold.
  induction rebalancing as [|[k info] r IH]; intros buy sell hold; simpl.
  - unfold orders_where, no_actions. simpl. now rewrite !app_nil_r.
  - unfold orders_where, no_actions, is_sell, is_no_action, is_buy in *.
    simpl.
    destruct (String.eqb (Rebalance.action info) BUY); simpl.
    + rewrite IH, <- app_assoc. reflexivity.
    + destruct (String.eqb (Rebalance.action info) SELL); simpl;
        rewrite IH, <- app_assoc; reflexivity.
Qed.

Lemma plan_buy_list rebalancing cash :
  Plan.buy_list (generate_trading_plan rebalancing cash)
  = orders_where is_buy rebalancing.
Proof. unfold generate_trading_plan. now rewrite plan_lists. Qed.

Lemma plan_sell_list rebalancing cash :
  Plan.sell_list (generate_trading_plan rebalancing cash)
  = orders_where is_sell rebalancing.
Proof. unfold generate_trading_plan. now rewrite plan_lists. Qed.

Lemma plan_no_action_list rebalancing cash :
  Plan.no_action_list (generate_trading_plan rebalancing cash)
  = no_actions rebalancing.
Proof. unfold generate_trading_plan. now rewrite plan_lists. Qed.

(** ** The loop of calculate_target_positions *)

Section AllocationLoop.
Variables (w ta : Q) (prices : dict (option Q)).

Lemma target_step_cases acc stock :
  target_step w ta prices acc stock
  = match price_of prices stock with
    | Some price => set acc stock (entry_of_price w ta price)
    | None => acc
    end.
Proof.
  unfold target_step, price_of.
  destruct (get prices stock) as [[price|]|]; auto.
  destruct (Qle_bool price 0); auto.
Qed.

Lemma allocation_loop_wf stocks acc :
  wf acc -> wf (fold_left (target_step w ta prices) stocks acc).
Proof.
  revert acc.
  induction stocks as [|k r IH]; cbn [fold_left]; intros acc Hacc; auto.
  apply IH. rewrite target_step_cases.
  destruct (price_of prices k); auto. now apply wf_set.
Qed.

Lemma allocation_loop_other stocks acc s :
  ~ In s stocks \/ price_of prices s = None ->
  get (fold_left (target_step w ta prices) stocks acc) s = get acc s.
Proof.
  revert acc.
  induction stocks as [|k r IH]; cbn [fold_left]; intros acc Hs; auto.
  rewrite IH by (simpl in Hs; tauto).
  rewrite target_step_cases.
  destruct (price_of prices k) eqn:Ek; auto.
  apply get_set_other. intros ->. simpl in Hs.
  destruct Hs as [Hs|Hs]; [tauto | congruence].
Qed.

Lemma allocation_loop_get stocks acc s price :
  In s stocks -> price_of prices s = Some price ->
  get (fold_left (target_step w ta prices) stocks acc) s
  = Some (entry_of_price w ta price).
Proof.
  revert acc.
  induction stocks as [|k r IH]; cbn [fold_left]; intros acc Hin Hp.
  - contradiction.
  - destruct (in_dec string_dec s r) as [Hr|Hr].
    + now apply IH.
    + destruct Hin as [->|]; [|contradiction].
      rewrite allocation_loop_other by tauto.
      rewrite target_step_cases, Hp. apply get_set_same.
Qed.
End AllocationLoop.

Lemma calculate_target_positions_wf A stocks prices :
  wf (calculate_target_positions A stocks prices).
Proof.
  unfold calculate_target_positions.
  destruct (Nat.eqb (List.length stocks) 0).
  - constructor.
  - apply allocation_loop_wf. constructor.
Qed.

(** The allocation, key by key. *)
Lemma allocation_get A stocks prices s :
  get (calculate_target_positions A stocks prices) s
  = if in_dec string_dec s stocks
    then option_map
           (entry_of_price (weight_of stocks) (A * weight_of stocks))
           (price_of prices s)
    else None.
Proof.
  unfold calculate_target_positions, weight_of.
  destruct (Nat.eqb_spec (List.length stocks) 0) as [E|E].
  - destruct stocks; [|discriminate]. reflexivity.
  - destruct (in_dec string_dec s stocks) as [Hin|Hout].
    + destruct (price_of prices s) as [price|] eqn:Hp; simpl.
      * now apply allocation_loop_get.
      * rewrite allocation_loop_other by tauto. reflexivity.
    + rewrite allocation_loop_other by tauto. reflexivity.
Qed.

Lemma price_of_None prices s :
  price_of prices s = None <->
  get prices s = None \/ get prices s = Some None \/
  exists price, get prices s = Some (Some price) /\ (price <= 0)%Q.
Proof.
  unfold price_of. destruct (get prices s) as [[price|]|].
  - destruct (Qle_bool price 0) eqn:E.
    + apply Qle_bool_iff in E. split; auto. intros _. right. right. eauto.
    + split; [discriminate|].
      intros [H|[H|(q & H & Hq)]]; try discriminate.
      inversion H; subst. apply Qle_bool_iff in Hq. congruence.
  - split; auto.
  - split; auto.
Qed.


(** ** Rebalancing *)

Lemma SELL_is_sell info : Rebalance.action info = SELL -> is_sell info = true.
Proof. unfold is_sell, is_buy. intros ->. reflexivity. Qed.

Lemma In_sell_list rebalancing cash s info :
  get rebalancing s = Some info -> Rebalance.action info = SELL ->
  In (order_of s info)
    (Plan.sell_list (generate_trading_plan rebalancing cash)).
Proof.
  intros Hget Hact. rewrite plan_sell_list. unfold orders_where.
  apply (in_map (fun kv => order_of (fst kv) (snd kv)) _ (s, info)).
  apply filter_In. split.
  - now apply get_Some_In.
  - now apply SELL_is_sell.
Qed.

(** C3.  An instrument that is in the current positions and not in the
    target allocation gets, from [calculate_rebalancing], the action Sell
    with target quantity 0, the whole current quantity as action quantity
    and the holding's own current price; [generate_trading_plan] puts it
    in the sell list with that quantity and that price. *)
Theorem C3_forced_liquidation target current cash s h :
  wf current ->
  get current s = Some h ->
  contains target s = false ->
  let rebalancing := calculate_rebalancing target current in
  get rebalancing s
  = Some (Rebalance.mk 0 (Holding.quantity h) (- Holding.quantity h) SELL
            (Holding.quantity h) (Holding.current_price h))
  /\ In (Order.mk s (Holding.quantity h) (Holding.current_price h)
           (inject_Z (Holding.quantity h) * Holding.current_price h))
        (Plan.sell_list (generate_trading_plan rebalancing cash)).
Proof.
  intros Hwf Hget Hout rebalancing.
  assert (E : get rebalancing s = Some (entry_of_holding h))
    by now apply rebalancing_of_holding.
  split; [exact E|].
  apply (In_sell_list rebalancing cash s _ E). reflexivity.
Qed.

Lemma C3_forced_liquidation_witness :
  let current := [("C", Holding.mk 300 10 11)] in
  let rebalancing := calculate_rebalancing [] current in
  get rebalancing "C" = Some (Rebalance.mk 0 300 (-300) SELL 300 11)
  /\ In (Order.mk "C" 300 11 (inject_Z 300 * 11))
        (Plan.sell_list (generate_trading_plan rebalancing 50000)).
Proof.
  apply (C3_forced_liquidation [] [("C", Holding.mk 300 10 11)] 50000 "C"
           (Holding.mk 300 10 11)).
  - repeat constructor. simpl. tauto.
  - reflexivity.
  - reflexivity.
Defined.



(** C8.  An instrument of the selection list whose price is missing, is
    [None] or is not positive, and that is held with a positive quantity,
    is left out of the target allocation; [calculate_rebalancing] then
    sells the whole holding: action Sell, action quantity the current
    quantity, target quantity 0, at the holding's current price. *)
Theorem C8_unpriced_holding_is_liquidated A stocks prices current s h :
  wf current ->
  In s stocks ->
  (get prices s = None \/ get prices s = Some None \/
   exists price, get prices s = Some (Some price) /\ (price <= 0)%Q) ->
  get current s = Some h ->
  0 < Holding.quantity h ->
  let target := calculate_target_positions A stocks prices in
  contains target s = false
  /\ get (calculate_rebalancing target current) s
     = Some (Rebalance.mk 0 (Holding.quantity h) (- Holding.quantity h) SELL
               (Holding.quantity h) (Holding.current_price h)).
Proof.
  intros Hwf Hin Hprice Hget _ target.
  assert (Hout : contains target s = false).
  { unfold contains, target. rewrite allocation_get.
    apply price_of_None in Hprice. rewrite Hprice.
    destruct (in_dec string_dec s stocks); reflexivity. }
  split; [exact Hout|].
  now apply rebalancing_of_holding.
Qed.

Lemma C8_unpriced_holding_is_liquidated_witness :
  let target :=
    calculate_target_positions 1000000 ["A"; "B"]
      [("A", Some 100%Q); ("B", None)] in
  contains target "B" = false
  /\ get (calculate_rebalancing target [("B", Holding.mk 700 8 9)]) "B"
     = Some (Rebalance.mk 0 700 (-700) SELL 700 9).
Proof.
  apply (C8_unpriced_holding_is_liquidated 1000000 ["A"; "B"]
           [("A", Some 100%Q); ("B", None)] [("B", Holding.mk 700 8 9)]
           "B" (Holding.mk 700 8 9)).
  - repeat constructor. simpl. tauto.
  - simpl. tauto.
  - right. left. reflexivity.
  - reflexivity.
  - reflexivity.
Defined.

(** ** The plan *)

Lemma count_named {X : Type} (name : X -> string)
    (f : string * Rebalance.t -> X) (l : dict Rebalance.t) s :
  (forall kv, name (f kv) = fst kv) ->
  count_occ string_dec (map name (map f l)) s
  = count_occ string_dec (keys l) s.
Proof.
  intros Hname. unfold keys. rewrite map_map.
  f_equal. apply map_ext. exact Hname.
Qed.

Lemma count_keys_filter_out (sel : string * Rebalance.t -> bool) l s :
  ~ In s (keys l) -> count_occ string_dec (keys (filter sel l)) s = 0%nat.
Proof.
  intros Hs. apply count_occ_not_In. intros Hin. apply Hs.
  unfold keys in *. apply in_map_iff in Hin as ([k v] & <- & Hkv).
  apply filter_In in Hkv as [Hkv _]. now apply (in_map fst) in Hkv.
Qed.

Lemma count_keys_filter (sel : Rebalance.t -> bool) l s info :
  wf l -> get l s = Some info ->
  count_occ string_dec (keys (filter (fun kv => sel (snd kv)) l)) s
  = Nat.b2n (sel info).
Proof.
  induction l as [|[k v] r IH]; cbn [get filter snd]; intros Hwf Hget.
  - discriminate.
  - inversion Hwf as [|? ? Hk Hr]; subst.
    destruct (String.eqb_spec k s) as [->|Hne].
    + inversion Hget; subst.
      destruct (sel info); simpl.
      * destruct (string_dec s s); [|congruence].
        now rewrite count_keys_filter_out.
      * now rewrite count_keys_filter_out.
    + destruct (sel v); simpl; [destruct (string_dec k s); [congruence|]|];
        now apply IH.
Qed.

(** Where the plan names an instrument of a rebalancing dict. *)
Lemma occurrences_get rebalancing cash s info :
  wf rebalancing -> get rebalancing s = Some info ->
  occurrences s (generate_trading_plan rebalancing cash)
  = (Nat.b2n (is_buy info), Nat.b2n (is_sell info),
     Nat.b2n (is_no_action info)).
Proof.
  intros Hwf Hget. unfold occurrences.
  rewrite plan_buy_list, plan_sell_list, plan_no_action_list.
  unfold orders_where, no_actions.
  rewrite !count_named by reflexivity.
  now rewrite !(count_keys_filter _ _ _ _ Hwf Hget).
Qed.

Lemma orders_amount sel rebalancing :
  map Order.amount (orders_where sel rebalancing)
  = map (fun o => (inject_Z (Order.quantity o) * Order.price o)%Q)
      (orders_where sel rebalancing).
Proof. unfold orders_where. rewrite !map_map. reflexivity. Qed.

(** C4.  In the plan of any rebalancing dict and any cash balance, the
    total buy amount is the sum of quantity times price over the buy list,
    the total sell amount is that sum over the sell list, and the available
    cash is the cash balance plus the total sell amount minus the total
    buy amount. *)
Theorem C4_plan_totals rebalancing cash :
  let plan := generate_trading_plan rebalancing cash in
  Plan.total_buy_amount plan
  = py_sum (map (fun o => (inject_Z (Order.quantity o) * Order.price o)%Q)
              (Plan.buy_list plan))
  /\ Plan.total_sell_amount plan
     = py_sum (map (fun o => (inject_Z (Order.quantity o) * Order.price o)%Q)
                 (Plan.sell_list plan))
  /\ Plan.available_cash plan
     = (cash + Plan.total_sell_amount plan - Plan.total_buy_amount plan)%Q.
Proof.
  unfold generate_trading_plan. rewrite plan_lists. cbn [app Plan.buy_list
    Plan.sell_list Plan.total_buy_amount Plan.total_sell_amount
    Plan.available_cash].
  now rewrite !orders_amount.
Qed.

(** C10.  [generate_trading_plan] is total, and its three lists partition
    the rebalancing dict: an instrument of the dict is named once in
    exactly one of the buy list, the sell list and the no-action list,
    whatever the cash balance and the sign of the available cash. *)
Theorem C10_plan_partitions rebalancing cash s :
  wf rebalancing ->
  In s (keys rebalancing) ->
  let plan := generate_trading_plan rebalancing cash in
  occurrences s plan = (1, 0, 0)%nat
  \/ occurrences s plan = (0, 1, 0)%nat
  \/ occurrences s plan = (0, 0, 1)%nat.
Proof.
  intros Hwf Hin plan.
  destruct (get rebalancing s) as [info|] eqn:Hget.
  - unfold plan. rewrite (occurrences_get _ _ _ _ Hwf Hget).
    unfold is_sell, is_no_action.
    destruct (is_buy info); simpl; auto.
    destruct (String.eqb (Rebalance.action info) SELL); simpl; auto.
  - apply get_None in Hget. contradiction.
Qed.

Lemma C10_plan_partitions_witness :
  let rebalancing :=
    [("A", Rebalance.mk 800 0 800 BUY 800 100);
     ("B", Rebalance.mk 0 200 (-200) SELL 200 100)] in
  let plan := generate_trading_plan rebalancing 50000 in
  (Plan.available_cash plan == -10000)%Q
  /\ (occurrences "A" plan = (1, 0, 0)%nat
      \/ occurrences "A" plan = (0, 1, 0)%nat
      \/ occurrences "A" plan = (0, 0, 1)%nat).
Proof.
  split; [reflexivity|].
  apply (C10_plan_partitions
           [("A", Rebalance.mk 800 0 800 BUY 800 100);
            ("B", Rebalance.mk 0 200 (-200) SELL 200 100)] 50000 "A").
  - repeat constructor; simpl; intuition discriminate.
  - simpl. tauto.
Defined.

(** ** Classification of the actions *)

(** The claim C5 as it is written fails on a holding of quantity 0 that
    the target allocation does not name: its difference is 0, its action
    is Sell, and the plan names it in the sell list and not in the
    no-action list. *)
Lemma C5_zero_holding_is_sold :
  let rebalancing := calculate_rebalancing [] [("C", Holding.mk 0 10 11)] in
  exists info,
    get rebalancing "C" = Some info
    /\ Rebalance.diff info = 0
    /\ Rebalance.action info = SELL
    /\ Rebalance.action info <> HOLD
    /\ occurrences "C" (generate_trading_plan rebalancing 0) = (0, 1, 0)%nat.
Proof.
  eexists. split; [reflexivity|].
  repeat split; try reflexivity. discriminate.
Qed.

(** An instrument of the target allocation: quantities, difference, action
    and place in the plan. *)
Lemma target_entry_classified target current cash s tp :
  wf target ->
  get target s = Some tp ->
  let rebalancing := calculate_rebalancing target current in
  let plan := generate_trading_plan rebalancing cash in
  exists info,
    get rebalancing s = Some info
    /\ Rebalance.target_qty info = Target.target_qty tp
    /\ Rebalance.current_qty info
       = match get current s with
         | Some h => Holding.quantity h
         | None => 0
         end
    /\ Rebalance.diff info
       = Rebalance.target_qty info - Rebalance.current_qty info
    /\ (Rebalance.diff info = 0 ->
        Rebalance.action info = HOLD /\ Rebalance.action_qty info = 0
        /\ occurrences s plan = (0, 0, 1)%nat)
    /\ (0 < Rebalance.diff info ->
        Rebalance.action info = BUY
        /\ Rebalance.action_qty info = Rebalance.diff info
        /\ occurrences s plan = (1, 0, 0)%nat)
    /\ (Rebalance.diff info < 0 ->
        Rebalance.action info = SELL
        /\ Rebalance.action_qty info = - Rebalance.diff info
        /\ occurrences s plan = (0, 1, 0)%nat).
Proof.
  intros Hwf Hget rebalancing plan.
  pose proof (rebalancing_of_target target current s tp Hwf Hget) as E.
  fold rebalancing in E.
  pose proof (occurrences_get rebalancing cash s _
                (calculate_rebalancing_wf target current) E) as Hocc.
  fold plan in Hocc.
  exists (entry_of_target current s tp).
  split; [exact E|]. rewrite Hocc. clear E Hocc.
  unfold entry_of_target, is_sell, is_no_action, is_buy.
  cbn [Rebalance.target_qty Rebalance.current_qty Rebalance.diff
       Rebalance.action Rebalance.action_qty].
  set (d := Target.target_qty tp - _).
  split; [reflexivity|]. split; [reflexivity|]. split; [reflexivity|].
  assert (Hpos : 0 < d -> (0 <? d) = true) by (intros; now apply Z.ltb_lt).
  assert (Hneg : d < 0 -> (0 <? d) = false /\ (d <? 0) = true).
  { intros. split; [apply Z.ltb_ge; lia | now apply Z.ltb_lt]. }
  split; [|split]; intros Hd.
  - rewrite Hd. repeat split.
  - rewrite (Hpos Hd). repeat split.
    destruct (Z.eqb_spec d 0); simpl; lia.
  - destruct (Hneg Hd) as [H0 H1]. rewrite H0, H1. repeat split.
    destruct (Z.eqb_spec d 0); simpl; lia.
Qed.

(** A holding outside the target allocation: always Sell, in the sell
    list. *)
Lemma holding_entry_sold target current cash s h :
  wf current ->
  get current s = Some h ->
  contains target s = false ->
  let rebalancing := calculate_rebalancing target current in
  exists info,
    get rebalancing s = Some info
    /\ Rebalance.diff info = - Holding.quantity h
    /\ Rebalance.action info = SELL
    /\ occurrences s (generate_trading_plan rebalancing cash)
       = (0, 1, 0)%nat.
Proof.
  intros Hwf Hget Hout rebalancing.
  pose proof (rebalancing_of_holding target current s h Hwf Hout Hget) as E.
  fold rebalancing in E.
  exists (entry_of_holding h). split; [exact E|].
  rewrite (occurrences_get rebalancing cash s _
             (calculate_rebalancing_wf target current) E).
  repeat split.
Qed.

(** C5, amended.  For an instrument of the target allocation the
    difference is the target quantity minus the current quantity (0 when
    the instrument is not held); with difference 0 the action is Hold and
    the plan names the instrument in the no-action list only, with a
    positive difference the action is Buy and the plan names it in the buy
    list only, with a negative difference the action is Sell and the plan
    names it in the sell list only.  A holding that the target allocation
    does not name is Sell and in the sell list only, whatever its quantity
    and so whatever its difference. *)
Theorem C5_actions_classified target current cash :
  wf target ->
  wf current ->
  let rebalancing := calculate_rebalancing target current in
  let plan := generate_trading_plan rebalancing cash in
  (forall s tp,
     get target s = Some tp ->
     exists info,
       get rebalancing s = Some info
       /\ Rebalance.diff info
          = Target.target_qty tp
            - match get current s with
              | Some h => Holding.quantity h
              | None => 0
              end
       /\ (Rebalance.diff info = 0 ->
           Rebalance.action info = HOLD
           /\ occurrences s plan = (0, 0, 1)%nat)
       /\ (0 < Rebalance.diff info ->
           Rebalance.action info = BUY
           /\ occurrences s plan = (1, 0, 0)%nat)
       /\ (Rebalance.diff info < 0 ->
           Rebalance.action info = SELL
           /\ occurrences s plan = (0, 1, 0)%nat))
  /\ (forall s h,
        get current s = Some h ->
        contains target s = false ->
        exists info,
          get rebalancing s = Some info
          /\ Rebalance.diff info = - Holding.quantity h
          /\ Rebalance.action info = SELL
          /\ occurrences s plan = (0, 1, 0)%nat).
Proof.
  intros Ht Hc rebalancing plan. split.
  - intros s tp Hget.
    destruct (target_entry_classified target current cash s tp Ht Hget)
      as (info & E & Htq & Hcq & Hd & H0 & Hpos & Hneg).
    exists info. split; [exact E|].
    split; [rewrite Hd, Htq, Hcq; reflexivity|].
    split; [|split]; intros Hx;
      [apply H0 in Hx | apply Hpos in Hx | apply Hneg in Hx]; tauto.
  - intros s h Hget Hout.
    now apply holding_entry_sold.
Qed.

Lemma C5_actions_classified_witness :
  let target := [("A", entry_of_price (1 # 2) 500000 100)] in
  let current := [("A", Holding.mk 5000 90 100); ("C", Holding.mk 0 10 11)] in
  let rebalancing := calculate_rebalancing target current in
  let plan := generate_trading_plan rebalancing 0 in
  (exists info,
     get rebalancing "A" = Some info
     /\ Rebalance.action info = HOLD
     /\ occurrences "A" plan = (0, 0, 1)%nat)
  /\ (exists info,
        get rebalancing "C" = Some info
        /\ Rebalance.action info = SELL
        /\ occurrences "C" plan = (0, 1, 0)%nat).
Proof.
  destruct (C5_actions_classified
              [("A", entry_of_price (1 # 2) 500000 100)]
              [("A", Holding.mk 5000 90 100); ("C", Holding.mk 0 10 11)] 0)
    as [Htarget Hcurrent].
  - repeat constructor. simpl. tauto.
  - repeat constructor; simpl; intuition discriminate.
  - split.
    + destruct (Htarget "A" (entry_of_price (1 # 2) 500000 100) eq_refl)
        as (info & E & Hd & H0 & _).
      exists info. split; [exact E|]. apply H0. rewrite Hd. reflexivity.
    + destruct (Hcurrent "C" (Holding.mk 0 10 11) eq_refl eq_refl)
        as (info & E & _ & Ha & Ho).
      exists info. auto.
Defined.

(** ** Arithmetic of the lot rounding *)

Local Open Scope Q_scope.







Local Close Scope Q_scope.

(** ** The allocation *)

(** Every entry of the allocation is the entry of an instrument of the list
    with an accepted price. *)
Lemma allocation_entry A stocks prices s t :
  get (calculate_target_positions A stocks prices) s = Some t ->
  In s stocks
  /\ exists price,
       price_of prices s = Some price
       /\ t = entry_of_price (weight_of stocks) (A * weight_of stocks) price.
Proof.
  rewrite allocation_get.
  destruct (in_dec string_dec s stocks) as [Hin|]; [|discriminate].
  destruct (price_of prices s) as [price|]; [|discriminate].
  simpl. intros H. inversion H. eauto.
Qed.

Lemma allocation_In_entry A stocks prices s t :
  In (s, t) (calculate_target_positions A stocks prices) ->
  In s stocks
  /\ exists price,
       price_of prices s = Some price
       /\ t = entry_of_price (weight_of stocks) (A * weight_of stocks) price.
Proof.
  intros Hin. apply allocation_entry.
  apply In_get; [apply calculate_target_positions_wf | exact Hin].
Qed.






(** ** The budget under a uniform price *)

Local Open Scope Q_scope.



Section UniformPrice.
Variables (A p : Q) (stocks : list string) (prices : dict (option Q)).
Hypothesis stocks_not_empty : stocks <> [].
Hypothesis p_positive : 0 < p.
Hypothesis prices_uniform :
  forall s, In s stocks -> get prices s = Some (Some p).






End UniformPrice.

Local Close Scope Q_scope.




(** ** The selection reader *)

Section SelectionReaderFacts.
Variable DictReader : string -> Csv.outcome.


Lemma read_selection_structured content :
  Csv.raised (DictReader content) = false ->
  read_selection_result DictReader content
  = fold_left selection_row_step (Csv.rows (DictReader content)) [].
Proof. unfold read_selection_result. now intros ->. Qed.
End SelectionReaderFacts.

(** A row without the three columns adds nothing. *)
Lemma selection_row_step_skip stocks row :
  row_get row "stock_code" = None ->
  row_get row "instrument" = None ->
  row_get row "code" = None ->
  selection_row_step stocks row = stocks.
Proof. unfold selection_row_step. now intros -> -> ->. Qed.

Lemma zip_row_keys fieldnames fields row k :
  In k (keys (zip_row fieldnames fields row)) ->
  In k (keys row) \/ In k fieldnames.
Proof.
  revert fields row.
  induction fieldnames as [|f fs IH]; intros fields row; simpl; auto.
  destruct fields as [|v vs]; intros Hin; apply IH in Hin;
    (destruct Hin as [Hin|Hin]; [|tauto]);
    rewrite keys_set in Hin;
    (destruct (contains row f); [tauto|]);
    apply in_app_or in Hin as [Hin|[<-|[]]]; tauto.
Qed.

Lemma zip_row_get fieldnames fields k :
  ~ In k fieldnames -> row_get (zip_row fieldnames fields []) k = None.
Proof.
  intros Hk. unfold row_get.
  assert (E : get (zip_row fieldnames fields []) k = None).
  { apply get_None. intros Hin. apply zip_row_keys in Hin as [[]|Hin].
    contradiction. }
  now rewrite E.
Qed.

Lemma plain_DictReader_never_raises content :
  Csv.raised (plain_DictReader content) = false.
Proof.
  unfold plain_DictReader.
  destruct (filter non_empty (lines content)); reflexivity.
Qed.

(** A text whose first line names none of the three columns is read as
    the empty selection: its first line is taken for the header, nothing
    is raised, and the lines are never read one by one. *)
Lemma headerless_selection_is_empty content header body :
  filter non_empty (lines content) = header :: body ->
  ~ In "stock_code" (split_on "," header) ->
  ~ In "instrument" (split_on "," header) ->
  ~ In "code" (split_on "," header) ->
  read_selection_result plain_DictReader content = [].
Proof.
  intros Hlines H1 H2 H3.
  rewrite read_selection_structured by apply plain_DictReader_never_raises.
  unfold plain_DictReader. rewrite Hlines. cbn [Csv.rows]. clear Hlines.
  induction body as [|l r IH]; cbn [map fold_left]; auto.
  rewrite selection_row_step_skip; auto using zip_row_get.
Qed.

(** C6, on the code.  A plain-text selection of three instrument codes,
    one on each line: the rows of the structured reading raise nothing, so
    the result is the empty list, although the line-oriented reading of
    the same text gives the three codes in order. *)
Theorem C6_plain_text_selection_is_lost :
  let content := unlines ["SH600000"; "SH600001"; "SZ000001"] in
  Csv.raised (plain_DictReader content) = false
  /\ read_selection_result plain_DictReader content = []
  /\ fold_left selection_line_step (lines content) []
     = ["SH600000"; "SH600001"; "SZ000001"].
Proof. vm_compute. repeat split. Qed.

Example target_two_at_100 :
  map (fun kv => (fst kv, Target.target_qty (snd kv)))
    (calculate_target_positions 1000000 ["A"; "B"]
       [("A", Some 100%Q); ("B", Some 100%Q)])
  = [("A", 5000); ("B", 5000)].
Proof. vm_compute. reflexivity. Qed.

Example liquidate_C :
  calculate_rebalancing [] [("C", Holding.mk 300 10 11)]
  = [("C", Rebalance.mk 0 300 (-300) SELL 300 11)].
Proof. reflexivity. Qed.

Example read_csv_selection :
  read_selection_result plain_DictReader
    (unlines ["stock_code,score"; "SH600000,0.9"; " SZ000001 ,0.8"])
  = ["SH600000"; "SZ000001"].
Proof. vm_compute. reflexivity. Qed.

(** * Further properties of the script *)

(** ** The entries of calculate_rebalancing *)

Lemma target_loop_In current target acc s info :
  In (s, info) (fold_left (rebalance_target_step current) target acc) ->
  In (s, info) acc
  \/ exists tp, In (s, tp) target /\ info = entry_of_target current s tp.
Proof.
  revert acc.
  induction target as [|[k v] r IH]; cbn [fold_left]; intros acc Hin; auto.
  apply IH in Hin as [Hin|(tp & Htp & ->)].
  - rewrite rebalance_target_step_set in Hin.
    apply in_set in Hin as [Heq|Hin]; auto.
    inversion Heq; subst. right. exists v. split; [now left | reflexivity].
  - right. exists tp. split; [now right | reflexivity].
Qed.

Lemma current_loop_In target current acc s info :
  In (s, info) (fold_left (rebalance_current_step target) current acc) ->
  In (s, info) acc
  \/ exists h,
       In (s, h) current /\ contains target s = false
       /\ info = entry_of_holding h.
Proof.
  revert acc.
  induction current as [|[k v] r IH]; cbn [fold_left]; intros acc Hin; auto.
  apply IH in Hin as [Hin|(h & Hh & Hout & ->)].
  - unfold rebalance_current_step in Hin.
    destruct (contains target k) eqn:Ek; simpl in Hin; auto.
    apply in_set in Hin as [Heq|Hin]; auto.
    inversion Heq; subst. right. exists v.
    split; [now left | split; [exact Ek | reflexivity]].
  - right. exists h. split; [now right | auto].
Qed.

(** Every entry of the result comes from one of the two loops. *)
Lemma rebalancing_entry_origin target current s info :
  In (s, info) (calculate_rebalancing target current) ->
  (exists tp, In (s, tp) target /\ info = entry_of_target current s tp)
  \/ (exists h,
        In (s, h) current /\ contains target s = false
        /\ info = entry_of_holding h).
Proof.
  unfold calculate_rebalancing. intros Hin.
  apply current_loop_In in Hin as [Hin|Hin]; auto.
  apply target_loop_In in Hin as [[]|Hin]. auto.
Qed.

Lemma In_keys {V : Type} (d : dict V) k v : In (k, v) d -> In k (keys d).
Proof. intros Hin. unfold keys. now apply (in_map fst) in Hin. Qed.

(** X1.  Every entry that [calculate_rebalancing] returns has
    diff = target_qty - current_qty and one of the three labels; a Buy has
    a positive difference and buys exactly that difference; a Hold has
    difference 0, action quantity 0 and is an instrument of the target
    allocation. *)
Theorem rebalancing_entry_invariant target current s info :
  In (s, info) (calculate_rebalancing target current) ->
  Rebalance.diff info
  = Rebalance.target_qty info - Rebalance.current_qty info
  /\ (Rebalance.action info = BUY \/ Rebalance.action info = SELL
      \/ Rebalance.action info = HOLD)
  /\ (Rebalance.action info = BUY ->
      0 < Rebalance.diff info
      /\ Rebalance.action_qty info = Rebalance.diff info)
  /\ (Rebalance.action info = HOLD ->
      Rebalance.diff info = 0 /\ Rebalance.action_qty info = 0
      /\ In s (keys target)).
Proof.
  intros Hin.
  apply rebalancing_entry_origin in Hin
    as [(tp & Htp & ->)|(h & Hh & Hout & ->)].
  - apply In_keys in Htp.
    unfold entry_of_target.
    cbn [Rebalance.diff Rebalance.target_qty Rebalance.current_qty
         Rebalance.action Rebalance.action_qty].
    set (d := Target.target_qty tp - _).
    split; [reflexivity|].
    destruct (Z.ltb_spec 0 d) as [Hpos|Hle].
    + split; [auto|]. split; [|discriminate].
      intros _. split; [exact Hpos|].
      destruct (Z.eqb_spec d 0); simpl; lia.
    + destruct (Z.ltb_spec d 0) as [Hneg|Hge].
      * split; [auto|]. split; discriminate.
      * assert (d = 0) as -> by lia.
        split; [auto|]. split; [discriminate|]. auto.
  - unfold entry_of_holding.
    cbn [Rebalance.diff Rebalance.target_qty Rebalance.current_qty
         Rebalance.action Rebalance.action_qty].
    split; [lia|]. split; [auto|]. split; discriminate.
Qed.

Lemma rebalancing_entry_invariant_witness :
  let info := Rebalance.mk 5000 0 5000 BUY 5000 100 in
  Rebalance.diff info
  = Rebalance.target_qty info - Rebalance.current_qty info
  /\ (Rebalance.action info = BUY \/ Rebalance.action info = SELL
      \/ Rebalance.action info = HOLD)
  /\ (Rebalance.action info = BUY ->
      0 < Rebalance.diff info
      /\ Rebalance.action_qty info = Rebalance.diff info)
  /\ (Rebalance.action info = HOLD ->
      Rebalance.diff info = 0 /\ Rebalance.action_qty info = 0
      /\ In "A" (keys [("A", Target.mk (1 # 2) 500000 5000 500000 100)])).
Proof.
  apply (rebalancing_entry_invariant
           [("A", Target.mk (1 # 2) 500000 5000 500000 100)]
           [("C", Holding.mk 300 10 11)] "A").
  simpl. left. reflexivity.
Defined.

(** X2.  When no holding has a negative quantity, every action quantity is
    the absolute value of the difference, so no order has a negative
    quantity. *)
Theorem action_qty_is_abs_diff target current s info :
  (forall k h, In (k, h) current -> 0 <= Holding.quantity h) ->
  In (s, info) (calculate_rebalancing target current) ->
  Rebalance.action_qty info = Z.abs (Rebalance.diff info).
Proof.
  intros Hpos Hin.
  apply rebalancing_entry_origin in Hin
    as [(tp & Htp & ->)|(h & Hh & Hout & ->)].
  - unfold entry_of_target. cbn [Rebalance.diff Rebalance.action_qty].
    set (d := Target.target_qty tp - _).
    destruct (Z.eqb_spec d 0) as [->|]; reflexivity.
  - unfold entry_of_holding. cbn [Rebalance.diff Rebalance.action_qty].
    specialize (Hpos s h Hh). lia.
Qed.

Lemma action_qty_is_abs_diff_witness :
  Rebalance.action_qty (Rebalance.mk 0 300 (-300) SELL 300 11)
  = Z.abs (Rebalance.diff (Rebalance.mk 0 300 (-300) SELL 300 11)).
Proof.
  apply (action_qty_is_abs_diff [] [("C", Holding.mk 300 10 11)] "C").
  - intros k h [Heq|[]]. inversion Heq. simpl. lia.
  - simpl. left. reflexivity.
Defined.

(** ** The order of the rebalancing dict *)

Lemma target_loop_keys current target acc :
  NoDup (keys acc ++ keys target) ->
  keys (fold_left (rebalance_target_step current) target acc)
  = keys acc ++ keys target.
Proof.
  revert acc.
  induction target as [|[k v] r IH]; cbn [fold_left]; intros acc Hnd.
  - simpl. now rewrite app_nil_r.
  - simpl in Hnd. rewrite rebalance_target_step_set.
    assert (Hk : contains acc k = false).
    { apply contains_false. apply NoDup_remove_2 in Hnd.
      intros Hin. apply Hnd. apply in_or_app. now left. }
    assert (Ekeys : keys (set acc k (entry_of_target current k v))
                    = keys acc ++ [k]) by (rewrite keys_set; now rewrite Hk).
    rewrite IH; rewrite Ekeys, <- app_assoc; [reflexivity | exact Hnd].
Qed.

Lemma current_loop_keys target current acc :
  NoDup (keys current) ->
  (forall k, In k (keys current) -> contains target k = false ->
             ~ In k (keys acc)) ->
  keys (fold_left (rebalance_current_step target) current acc)
  = keys acc
    ++ filter (fun k => negb (contains target k)) (keys current).
Proof.
  revert acc.
  induction current as [|[k v] r IH]; cbn [fold_left]; intros acc Hnd Hacc.
  - simpl. now rewrite app_nil_r.
  - simpl in Hnd. inversion Hnd as [|? ? Hk Hr]; subst.
    unfold rebalance_current_step at 2. cbn [keys map fst filter].
    destruct (contains target k) eqn:Ek; cbn [negb].
    + apply IH; auto. intros k' Hk'. apply Hacc. now right.
    + assert (Hout : contains acc k = false).
      { apply contains_false. apply Hacc; [now left | exact Ek]. }
      rewrite IH; auto.
      * rewrite keys_set, Hout, <- app_assoc. reflexivity.
      * intros k' Hk' Ek'. rewrite keys_set, Hout.
        intros Hin. apply in_app_or in Hin as [Hin|[<-|[]]].
        -- revert Hin. apply Hacc; [now right | exact Ek'].
        -- contradiction.
Qed.

Lemma rebalancing_keys target current :
  wf target -> wf current ->
  keys (calculate_rebalancing target current)
  = keys target
    ++ filter (fun k => negb (contains target k)) (keys current).
Proof.
  intros Ht Hc. unfold calculate_rebalancing.
  assert (E : keys (fold_left (rebalance_target_step current) target [])
              = keys target) by (now apply target_loop_keys).
  rewrite current_loop_keys; auto.
  - now rewrite E.
  - intros k _ Hk. rewrite E. now apply contains_false.
Qed.

(** X3.  The rebalancing dict lists the instruments of the target
    allocation first, in the order of the allocation, and then the
    holdings that the allocation does not name, in the order of the
    positions. *)
Theorem rebalancing_order target current :
  wf target -> wf current ->
  keys (calculate_rebalancing target current)
  = keys target
    ++ filter (fun k => negb (contains target k)) (keys current).
Proof. apply rebalancing_keys. Qed.

Lemma rebalancing_order_witness :
  keys (calculate_rebalancing
          [("B", Target.mk (1 # 2) 500 400 400 1);
           ("A", Target.mk (1 # 2) 500 400 400 1)]
          [("C", Holding.mk 300 10 11); ("A", Holding.mk 100 1 1);
           ("D", Holding.mk 200 2 2)])
  = ["B"; "A"; "C"; "D"].
Proof.
  apply (rebalancing_order
           [("B", Target.mk (1 # 2) 500 400 400 1);
            ("A", Target.mk (1 # 2) 500 400 400 1)]
           [("C", Holding.mk 300 10 11); ("A", Holding.mk 100 1 1);
            ("D", Holding.mk 200 2 2)]).
  - repeat constructor; simpl; intuition discriminate.
  - repeat constructor; simpl; intuition discriminate.
Defined.

(** ** Positions that already match the target *)

Lemma filter_nil {X : Type} (f : X -> bool) l :
  (forall x, In x l -> f x = false) -> filter f l = [].
Proof.
  induction l as [|x r IH]; intros H; simpl; auto.
  rewrite (H x) by now left. apply IH. intros y Hy. apply H. now right.
Qed.

(** X4.  When every holding is an instrument of the target allocation and
    every instrument of the allocation is held at its target quantity (or
    has target quantity 0 and is not held), the plan has nothing to buy and
    nothing to sell, names every instrument in the no-action list, and
    leaves the cash balance as it is. *)
Theorem balanced_positions_need_no_trade target current cash :
  (forall s tp, In (s, tp) target ->
     Target.target_qty tp
     = match get current s with
       | Some h => Holding.quantity h
       | None => 0
       end) ->
  (forall s h, In (s, h) current -> contains target s = true) ->
  let rebalancing := calculate_rebalancing target current in
  let plan := generate_trading_plan rebalancing cash in
  Plan.buy_list plan = []
  /\ Plan.sell_list plan = []
  /\ List.length (Plan.no_action_list plan) = List.length rebalancing
  /\ (Plan.available_cash plan == cash)%Q.
Proof.
  intros Hqty Hheld rebalancing plan.
  assert (Hhold : forall kv, In kv rebalancing ->
                    Rebalance.action (snd kv) = HOLD).
  { intros [s info] Hin. simpl.
    apply rebalancing_entry_origin in Hin
      as [(tp & Htp & ->)|(h & Hh & Hout & ->)].
    - unfold entry_of_target. cbn [Rebalance.action].
      rewrite (Hqty s tp Htp), Z.sub_diag. reflexivity.
    - rewrite (Hheld s h Hh) in Hout. discriminate. }
  assert (Hbuy : orders_where is_buy rebalancing = []).
  { unfold orders_where. rewrite filter_nil; auto.
    intros kv Hkv. unfold is_buy. now rewrite (Hhold kv Hkv). }
  assert (Hsell : orders_where is_sell rebalancing = []).
  { unfold orders_where. rewrite filter_nil; auto.
    intros kv Hkv. unfold is_sell, is_buy. now rewrite (Hhold kv Hkv). }
  assert (Hno : filter (fun kv => is_no_action (snd kv)) rebalancing
                = rebalancing).
  { apply forallb_filter_id. apply forallb_forall. intros kv Hkv.
    unfold is_no_action, is_buy. now rewrite (Hhold kv Hkv). }
  unfold plan, generate_trading_plan. rewrite plan_lists.
  cbn [app Plan.buy_list Plan.sell_list Plan.no_action_list
       Plan.available_cash].
  rewrite Hbuy, Hsell. unfold no_actions. rewrite Hno, length_map.
  repeat split. unfold py_sum. simpl. ring.
Qed.

Lemma balanced_positions_need_no_trade_witness :
  let target := [("A", Target.mk 1 500 400 400 1)] in
  let current := [("A", Holding.mk 400 1 1)] in
  let plan := generate_trading_plan (calculate_rebalancing target current) 7 in
  Plan.buy_list plan = []
  /\ Plan.sell_list plan = []
  /\ List.length (Plan.no_action_list plan) = 1%nat
  /\ (Plan.available_cash plan == 7)%Q.
Proof.
  apply (balanced_positions_need_no_trade
           [("A", Target.mk 1 500 400 400 1)] [("A", Holding.mk 400 1 1)] 7).
  - intros s tp [Heq|[]]. inversion Heq. reflexivity.
  - intros s h [Heq|[]]. inversion Heq. reflexivity.
Defined.

(** ** More on the allocation *)

Local Open Scope Q_scope.









Local Close Scope Q_scope.

(** ** The order of the allocation *)

Lemma allocation_loop_keys w ta prices stocks acc :
  NoDup (keys acc ++ stocks) ->
  keys (fold_left (target_step w ta prices) stocks acc)
  = keys acc ++ filter (priced prices) stocks.
Proof.
  revert acc.
  induction stocks as [|k r IH]; cbn [fold_left filter]; intros acc Hnd.
  - now rewrite app_nil_r.
  - rewrite target_step_cases. unfold priced at 1.
    destruct (price_of prices k) as [price|].
    + assert (Hk : contains acc k = false).
      { apply contains_false. apply NoDup_remove_2 in Hnd.
        intros Hin. apply Hnd. apply in_or_app. now left. }
      assert (Ekeys : keys (set acc k (entry_of_price w ta price))
                      = keys acc ++ [k])
        by (rewrite keys_set; now rewrite Hk).
      rewrite IH; rewrite Ekeys, <- app_assoc; [reflexivity | exact Hnd].
    + apply IH. apply NoDup_remove_1 in Hnd. exact Hnd.
Qed.

(** X7.  For a selection without duplicates, the allocation lists exactly
    the instruments with an accepted price, in the order of the
    selection. *)
Theorem allocation_order A stocks prices :
  NoDup stocks ->
  keys (calculate_target_positions A stocks prices)
  = filter (priced prices) stocks.
Proof.
  intros Hnd. unfold calculate_target_positions.
  destruct (Nat.eqb_spec (List.length stocks) 0) as [E|E].
  - destruct stocks; [reflexivity | discriminate].
  - now rewrite allocation_loop_keys.
Qed.

Lemma allocation_order_witness :
  keys (calculate_target_positions 1000000 ["B"; "C"; "A"]
          [("A", Some 7%Q); ("B", Some 13%Q); ("C", Some 0%Q)])
  = ["B"; "A"].
Proof.
  apply (allocation_order 1000000 ["B"; "C"; "A"]
           [("A", Some 7%Q); ("B", Some 13%Q); ("C", Some 0%Q)]).
  repeat constructor; simpl; intuition discriminate.
Defined.

(** ** Allocation and rebalancing together *)

Lemma allocation_qty_lots A stocks prices s tp :
  In (s, tp) (calculate_target_positions A stocks prices) ->
  (100 | Target.target_qty tp).
Proof.
  intros Hin. apply allocation_In_entry in Hin as (_ & price & _ & ->).
  cbn [entry_of_price Target.target_qty]. apply Z.divide_factor_r.
Qed.

(** X8.  When every holding is a whole number of lots, every difference
    and every action quantity of the rebalancing computed from the
    allocation is a whole number of lots. *)
Theorem rebalancing_in_whole_lots A stocks prices current s info :
  (forall k h, In (k, h) current -> (100 | Holding.quantity h)) ->
  In (s, info)
     (calculate_rebalancing (calculate_target_positions A stocks prices)
        current) ->
  (100 | Rebalance.diff info) /\ (100 | Rebalance.action_qty info).
Proof.
  intros Hlots Hin.
  apply rebalancing_entry_origin in Hin
    as [(tp & Htp & ->)|(h & Hh & Hout & ->)].
  - apply allocation_qty_lots in Htp.
    unfold entry_of_target. cbn [Rebalance.diff Rebalance.action_qty].
    assert (Hc : (100 | match get current s with
                        | Some c => Holding.quantity c
                        | None => 0
                        end)).
    { destruct (get current s) as [c|] eqn:Hget.
      - apply get_Some_In in Hget. now apply (Hlots s c).
      - apply Z.divide_0_r. }
    set (d := Target.target_qty tp - _).
    assert (Hd : (100 | d)) by now apply Z.divide_sub_r.
    split; [exact Hd|].
    destruct (Z.eqb_spec d 0); simpl.
    + apply Z.divide_0_r.
    + now apply Z.divide_abs_r.
  - specialize (Hlots s h Hh).
    unfold entry_of_holding. cbn [Rebalance.diff Rebalance.action_qty].
    split; [now apply Z.divide_opp_r | exact Hlots].
Qed.

Lemma rebalancing_in_whole_lots_witness :
  (100 | Rebalance.diff (Rebalance.mk 0 300 (-300) SELL 300 11))
  /\ (100 | Rebalance.action_qty (Rebalance.mk 0 300 (-300) SELL 300 11)).
Proof.
  apply (rebalancing_in_whole_lots 1000 ["A"] [("A", Some 1%Q)]
           [("C", Holding.mk 300 10 11)] "C").
  - intros k h [Heq|[]]. inversion Heq. simpl. exists 3. reflexivity.
  - vm_compute. right. left. reflexivity.
Defined.

(** ** From an empty portfolio *)

Local Open Scope Q_scope.





Local Close Scope Q_scope.

(** ** The plan and its dict *)

(** X10.  The three lists of a plan have together as many entries as the
    rebalancing dict, and an instrument that the dict does not hold is in
    none of them. *)
Theorem plan_covers_rebalancing_only rebalancing cash :
  let plan := generate_trading_plan rebalancing cash in
  (List.length (Plan.buy_list plan) + List.length (Plan.sell_list plan)
   + List.length (Plan.no_action_list plan))%nat
  = List.length rebalancing
  /\ forall s, ~ In s (keys rebalancing) ->
       occurrences s plan = (0, 0, 0)%nat.
Proof.
  intros plan. split.
  - unfold plan. rewrite plan_buy_list, plan_sell_list, plan_no_action_list.
    unfold orders_where, no_actions. rewrite !length_map.
    induction rebalancing as [|[k info] r IH]; simpl; auto.
    unfold is_sell, is_no_action, is_buy in *.
    destruct (String.eqb (Rebalance.action info) BUY);
      destruct (String.eqb (Rebalance.action info) SELL); simpl; lia.
  - intros s Hs. unfold occurrences, plan.
    rewrite plan_buy_list, plan_sell_list, plan_no_action_list.
    unfold orders_where, no_actions.
    rewrite !count_named by reflexivity.
    now rewrite !count_keys_filter_out.
Qed.

Lemma plan_covers_rebalancing_only_witness :
  let rebalancing :=
    [("A", Rebalance.mk 800 0 800 BUY 800 100);
     ("B", Rebalance.mk 0 200 (-200) SELL 200 100)] in
  occurrences "Z" (generate_trading_plan rebalancing 0) = (0, 0, 0)%nat.
Proof.
  destruct (plan_covers_rebalancing_only
              [("A", Rebalance.mk 800 0 800 BUY 800 100);
               ("B", Rebalance.mk 0 200 (-200) SELL 200 100)] 0)
    as [_ H].
  apply H. simpl. intuition discriminate.
Defined.

(** ** Reading a selection back *)


















(** ** Cells and lines that are not clean codes *)




Lemma blank_char_field_char c : blank_char c = true -> field_char c = true.
Proof.
  unfold blank_char. intros H. apply orb_prop in H as [H|H];
    apply Ascii.eqb_eq in H; subst; reflexivity.
Qed.









(** ** The positions reader *)

Example read_documented_positions :
  option_map
    (map (fun kv => (fst kv, Holding.quantity (snd kv))))
    (read_current_positions plain_DictReader plain_decimal
       (unlines ["stock_code,quantity,cost_price,current_price";
                 "SH000001,10000,10.00,10.50"]))
  = Some [("SH000001", 10000)].
Proof. vm_compute. reflexivity. Qed.

Lemma position_loop_failed float_of_string rows :
  fold_left (position_row_step float_of_string) rows None = None.
Proof. induction rows as [|row r IH]; simpl; auto. Qed.




(** X15.  A row that names an instrument and has a quantity, a cost price
    or a current price that is no number (or is missing because the row is
    short) ends the process: no positions are returned, whatever the other
    rows hold. *)
Theorem positions_bad_number_is_fatal
    (DictReader : string -> Csv.outcome) float_of_string content row :
  In row (Csv.rows (DictReader content)) ->
  truthy (py_or (row_get row "stock_code") (row_get row "code")) = true ->
  float_field float_of_string row "quantity" = None
  \/ float_field float_of_string row "cost_price" = None
  \/ float_field float_of_string row "current_price" = None ->
  read_current_positions DictReader float_of_string content = None.
Proof.
  intros Hin Hstock Hbad. unfold read_current_positions.
  apply in_split in Hin as (l1 & l2 & ->).
  rewrite fold_left_app. cbn [fold_left].
  assert (Hstep : forall st,
            position_row_step float_of_string st row = None).
  { intros [positions|]; [|reflexivity]. unfold position_row_step.
    destruct (py_or (row_get row "stock_code") (row_get row "code"))
      as [[|c r]|]; try discriminate.
    destruct Hbad as [->|[->| ->]]; auto.
    - destruct (float_field float_of_string row "quantity"); auto.
    - destruct (float_field float_of_string row "quantity"); auto.
      destruct (float_field float_of_string row "cost_price"); auto. }
  now rewrite Hstep, position_loop_failed.
Qed.

Lemma positions_bad_number_is_fatal_witness :
  read_current_positions plain_DictReader plain_decimal
    (unlines ["stock_code,quantity,cost_price,current_price";
              "SH000001,10000,10.00,10.50";
              "SZ000002,many,1.00,1.50"])
  = None.
Proof.
  apply (positions_bad_number_is_fatal plain_DictReader plain_decimal _
           [("stock_code", Some "SZ000002"); ("quantity", Some "many");
            ("cost_price", Some "1.00"); ("current_price", Some "1.50")]).
  - vm_compute. right. left. reflexivity.
  - reflexivity.
  - left. reflexivity.
Defined.

(** ** The report and the written plan *)

Example decimal_2f_examples :
  map decimal_2f [10.5; 1234.567; -0.125; 0; 80000]%Q
  = ["10.50"; "1234.57"; "-0.12"; "0.00"; "80000.00"].
Proof. vm_compute. reflexivity. Qed.

Lemma order_rows_In format_2f remark idx orders o :
  In o orders ->
  exists n,
    In [str_int n; Order.stock o; str_int (Order.quantity o);
        format_2f (Order.price o); format_2f (Order.amount o);
        remark (Order.quantity o)]
       (order_rows format_2f remark idx orders).
Proof.
  revert idx. induction orders as [|item rest IH]; intros idx Hin.
  - contradiction.
  - destruct Hin as [->|Hin].
    + exists idx. now left.
    + destruct (IH (idx + 1) Hin) as [n Hn]. exists n. now right.
Qed.

(** X16.  A holding that the target allocation does not name and that has
    fewer than 1000 shares is written to the plan file as a sell row for
    its whole quantity with the remark of a reduction (the remark of a
    liquidation is given by the quantity alone, from 1000 shares on). *)
Theorem small_liquidation_is_written_as_reduction
    (format_2f : Q -> string) target current cash trade_date s h :
  wf current ->
  get current s = Some h ->
  contains target s = false ->
  Holding.quantity h < 1000 ->
  let plan :=
    generate_trading_plan (calculate_rebalancing target current) cash in
  exists n,
    In [str_int n; s; str_int (Holding.quantity h);
        format_2f (Holding.current_price h);
        format_2f
          (inject_Z (Holding.quantity h) * Holding.current_price h)%Q;
        "减仓"]
       (save_trading_plan format_2f plan trade_date).
Proof.
  intros Hwf Hget Hout Hsmall plan.
  assert (Hin : In (order_of s (entry_of_holding h)) (Plan.sell_list plan)).
  { apply In_sell_list; [|reflexivity].
    now apply rebalancing_of_holding. }
  destruct (order_rows_In format_2f sell_remark 1 _ _ Hin) as [n Hn].
  exists n. unfold save_trading_plan.
  apply in_or_app. right. apply in_or_app. left.
  assert (Hremark : sell_remark (Holding.quantity h) = "减仓").
  { unfold sell_remark.
    destruct (Z.leb_spec 1000 (Holding.quantity h)); [lia | reflexivity]. }
  cbn [order_of entry_of_holding Order.stock Order.quantity Order.price
       Order.amount Rebalance.action_qty Rebalance.price] in Hn.
  rewrite Hremark in Hn. exact Hn.
Qed.

Lemma small_liquidation_is_written_as_reduction_witness :
  let plan :=
    generate_trading_plan
      (calculate_rebalancing [] [("C", Holding.mk 300 10 11)]) 0 in
  exists n,
    In [str_int n; "C"; str_int 300; decimal_2f 11;
        decimal_2f (inject_Z 300 * 11)%Q; "减仓"]
       (save_trading_plan decimal_2f plan "2024-01-16").
Proof.
  apply (small_liquidation_is_written_as_reduction decimal_2f []
           [("C", Holding.mk 300 10 11)] 0 "2024-01-16" "C"
           (Holding.mk 300 10 11)).
  - repeat constructor. simpl. tauto.
  - reflexivity.
  - reflexivity.
  - reflexivity.
Defined.

(** X17.  The written plan has sixteen rows besides one row for each sell
    order and one for each buy order, so for the plan of a rebalancing
    dict its length is sixteen plus the number of entries that are not
    Hold. *)
Theorem written_plan_length format_2f rebalancing cash trade_date :
  List.length
    (save_trading_plan format_2f (generate_trading_plan rebalancing cash)
       trade_date)
  = (16 + (List.length rebalancing
           - List.length
               (Plan.no_action_list
                  (generate_trading_plan rebalancing cash))))%nat.
Proof.
  assert (Hrows : forall remark idx orders,
            List.length (order_rows format_2f remark idx orders)
            = List.length orders).
  { intros remark idx orders. revert idx.
    induction orders as [|o r IH]; intros idx; simpl; auto. }
  assert (Hsum :
            (List.length (orders_where is_buy rebalancing)
             + List.length (orders_where is_sell rebalancing)
             + List.length (no_actions rebalancing))%nat
            = List.length rebalancing).
  { unfold orders_where, no_actions. rewrite !length_map.
    induction rebalancing as [|[k info] r IH]; simpl; auto.
    unfold is_sell, is_no_action, is_buy in *.
    destruct (String.eqb (Rebalance.action info) BUY);
      destruct (String.eqb (Rebalance.action info) SELL); simpl; lia. }
  unfold save_trading_plan. rewrite !length_app, !Hrows.
  rewrite plan_buy_list, plan_sell_list, plan_no_action_list.
  simpl. lia.
Qed.

Local Open Scope Q_scope.



Local Close Scope Q_scope.
